(** * Shallow embedding of brightray's NotificationPresenterLinux
    (src/browser/linux/notification_presenter_linux.cc).

    The presenter is glue over libnotify.  The calls it makes into libnotify,
    GLib and the delegate are recorded as events of a trace; the answers of
    those libraries (did a shared object load, did notify_notification_show
    set a GError, ...) are inputs of the operations.  Pointers to
    NotifyNotification objects are handles (nat); a nullable pointer is an
    [option handle].  Dereferencing a freed or never allocated GObject is
    undefined behaviour, modelled by the [None] outcome of the monad. *)

From Stdlib Require Import List String Bool Arith Lia Sorting.Sorted.
Import ListNotations.
Open Scope string_scope.
Open Scope list_scope.

Definition handle := nat.    (* NotifyNotification* *)
Definition delegate := nat.  (* content::DesktopNotificationDelegate* *)

(** Calls made by the presenter to the outside world. *)
Inductive event :=
| EvScanUsrLib                                   (* FileEnumerator over /usr/lib *)
| EvNotificationNew (h : handle) (title body : string)
| EvSetDelegateData (h : handle) (d : delegate)  (* g_object_set_data_full *)
| EvConnectClosed (h : handle)                   (* g_signal_connect "closed" *)
| EvAddAction (h : handle) (action label : string)
| EvPixbufFromSkBitmap                           (* libgtk2ui::GdkPixbufFromSkBitmap *)
| EvSetImageFromPixbuf (h : handle)
| EvSetTimeout (h : handle)
| EvUnrefPixbuf
| EvShow (h : handle)                            (* notify_notification_show *)
| EvClose (h : handle)                           (* notify_notification_close *)
| EvLogError (context : string)                  (* log_and_clear_error *)
| EvUnref (h : handle)                           (* g_object_unref on a notification *)
| EvDisplayed (d : delegate)                     (* delegate->NotificationDisplayed() *)
| EvClosed (d : delegate)                        (* delegate->NotificationClosed() *)
| EvClick (d : delegate)                         (* delegate->NotificationClick() *)
| EvSetCancelCallback (h : handle).              (* *cancel_callback = Bind(...) *)

(** ** UnityIsRunning and its process-wide cache *)

Record unity_cache := {
  unity_has_result : bool;
  unity_result : bool
}.

Definition unity_cache_init : unity_cache :=
  {| unity_has_result := false; unity_result := false |}.

(** The loop over [enumerator.Next()]: the enumerator yields the paths in
    [paths] and then the empty path; the loop also stops at an empty path. *)
Fixpoint scan_usr_lib (paths : list string) : bool :=
  match paths with
  | [] => false
  | haystack :: rest =>
      if String.eqb haystack "" then false
      else if String.prefix "/usr/lib/libunity-" haystack then true
      else scan_usr_lib rest
  end.

(** [env_set]: getenv("ELECTRON_USE_UBUNTU_NOTIFIER") is non-null;
    [usr_lib]: what the FileEnumerator over /usr/lib yields at this call. *)
Definition UnityIsRunning (env_set : bool) (usr_lib : list string) (c : unity_cache)
  : bool * unity_cache * list event :=
  if env_set then (true, c, [])
  else if unity_has_result c then (unity_result c, c, [])
  else
    let found := scan_usr_lib usr_lib in
    let r := if found then true else unity_result c in
    (r, {| unity_has_result := true; unity_result := r |}, [EvScanUsrLib]).

(** ** Init and Create *)

(** What the host answers to the dynamically loaded libnotify. *)
Record libnotify_system := {
  lib_loads : string -> bool;              (* LibNotifyLoader::Load(name) *)
  lib_is_initted : string -> bool;         (* notify_is_initted() of that library *)
  lib_init : string -> string -> bool      (* notify_init(app_name) of that library *)
}.

Record NotificationPresenterLinux := {
  notifications_ : list handle;
  libnotify_loader_ : option string        (* the library that was loaded *)
}.

(** [!Load(a) && !Load(b) && !Load(c)]: try the names in order, stop at the
    first that loads; returns the loaded name and the names tried. *)
Fixpoint load_first (sys : libnotify_system) (names : list string)
  : option string * list string :=
  match names with
  | [] => (None, [])
  | n :: rest =>
      if lib_loads sys n then (Some n, [n])
      else let '(r, tried) := load_first sys rest in (r, n :: tried)
  end.

Definition libnotify_names : list string :=
  ["libnotify.so.4"; "libnotify.so.1"; "libnotify.so"].

Record init_outcome := {
  init_ok : bool;
  init_loaded : option string;
  init_tried : list string;      (* Load calls, in order *)
  init_called : bool             (* notify_init was called *)
}.

Definition Init (sys : libnotify_system) (app_name : string) : init_outcome :=
  let '(loaded, tried) := load_first sys libnotify_names in
  match loaded with
  | None => {| init_ok := false; init_loaded := None; init_tried := tried;
               init_called := false |}
  | Some lib =>
      if lib_is_initted sys lib then
        {| init_ok := true; init_loaded := Some lib; init_tried := tried;
           init_called := false |}
      else
        {| init_ok := lib_init sys lib app_name; init_loaded := Some lib;
           init_tried := tried; init_called := true |}
  end.

(** NotificationPresenter::Create: the constructor sets notifications_ to
    nullptr (the empty GList); on a failed Init the scoped_ptr deletes the
    presenter and nullptr is returned. *)
Definition Create (sys : libnotify_system) (app_name : string)
  : option NotificationPresenterLinux :=
  let o := Init sys app_name in
  if init_ok o then
    Some {| notifications_ := []; libnotify_loader_ := init_loaded o |}
  else None.

(** ** The running presenter *)

(** Process state seen by the presenter: its GList [notifications_], the live
    GObjects (with their "delegate" data, [None] before it is set), the next
    address notify_notification_new hands out, the UnityIsRunning globals
    and the trace of outside calls. *)
Record world := {
  notifications : list handle;
  live : list (handle * option delegate);
  next_handle : handle;
  unity : unity_cache;
  trace : list event
}.

Definition set_notifications (l : list handle) (w : world) : world :=
  {| notifications := l; live := live w; next_handle := next_handle w;
     unity := unity w; trace := trace w |}.
Definition set_live (o : list (handle * option delegate)) (w : world) : world :=
  {| notifications := notifications w; live := o; next_handle := next_handle w;
     unity := unity w; trace := trace w |}.
Definition set_next_handle (n : handle) (w : world) : world :=
  {| notifications := notifications w; live := live w; next_handle := n;
     unity := unity w; trace := trace w |}.
Definition set_unity (c : unity_cache) (w : world) : world :=
  {| notifications := notifications w; live := live w; next_handle := next_handle w;
     unity := c; trace := trace w |}.
Definition add_trace (evs : list event) (w : world) : world :=
  {| notifications := notifications w; live := live w; next_handle := next_handle w;
     unity := unity w; trace := trace w ++ evs |}.

(** A state monad whose [None] outcome is undefined behaviour. *)
Definition M (A : Type) := world -> option (A * world).

Definition ret {A} (a : A) : M A := fun w => Some (a, w).
Definition bind {A B} (m : M A) (k : A -> M B) : M B :=
  fun w => match m w with
           | None => None
           | Some (a, w') => k a w'
           end.
Definition undefined {A} : M A := fun _ => None.
Definition gets {A} (f : world -> A) : M A := fun w => Some (f w, w).
Definition modify (f : world -> world) : M unit := fun w => Some (tt, f w).

Notation "x <- m ;; k" := (bind m (fun x => k))
  (at level 61, m at next level, right associativity).
Notation "m ;; k" := (bind m (fun _ : unit => k))
  (at level 61, right associativity).

Definition emit (evs : list event) : M unit := modify (add_trace evs).

(** GList operations on handles. *)
Definition g_list_append (l : list handle) (h : handle) : list handle := l ++ [h].

Fixpoint g_list_remove (l : list handle) (h : handle) : list handle :=
  match l with
  | [] => []
  | x :: rest => if Nat.eqb x h then rest else x :: g_list_remove rest h
  end.

(** GObject table. *)
Fixpoint object_data (o : list (handle * option delegate)) (h : handle)
  : option (option delegate) :=
  match o with
  | [] => None
  | (k, v) :: rest => if Nat.eqb k h then Some v else object_data rest h
  end.

Definition free_object (o : list (handle * option delegate)) (h : handle)
  : list (handle * option delegate) :=
  filter (fun kv => negb (Nat.eqb (fst kv) h)) o.

Definition update_object (o : list (handle * option delegate)) (h : handle)
  (d : delegate) : list (handle * option delegate) :=
  map (fun kv => if Nat.eqb (fst kv) h then (h, Some d) else kv) o.

Definition notify_notification_new (title body : string) : M handle :=
  h <- gets next_handle ;;
  modify (fun w => set_next_handle (S h) (set_live ((h, None) :: live w) w)) ;;
  emit [EvNotificationNew h title body] ;;
  ret h.

Definition g_object_set_data_full (h : handle) (d : delegate) : M unit :=
  o <- gets live ;;
  match object_data o h with
  | None => undefined
  | Some _ => modify (set_live (update_object o h d)) ;; emit [EvSetDelegateData h d]
  end.

(** The presenter holds the only reference: unref frees the object. *)
Definition g_object_unref (h : handle) : M unit :=
  o <- gets live ;;
  match object_data o h with
  | None => undefined
  | Some _ => modify (set_live (free_object o h)) ;; emit [EvUnref h]
  end.

Definition GetDelegateFromNotification (h : handle) : M delegate :=
  o <- gets live ;;
  match object_data o h with
  | Some (Some d) => ret d
  | _ => undefined      (* freed object, or a null delegate dereferenced *)
  end.

Definition log_and_clear_error (context : string) : M unit :=
  emit [EvLogError context].

(** The host at the time of a call: the environment variable and /usr/lib. *)
Record host := {
  env_ubuntu_notifier : bool;
  usr_lib_files : list string
}.

Definition unity_is_running (hs : host) : M bool :=
  c <- gets unity ;;
  let '(r, c', evs) := UnityIsRunning (env_ubuntu_notifier hs) (usr_lib_files hs) c in
  modify (set_unity c') ;; emit evs ;; ret r.

Record SkBitmap := {
  sk_width : nat;
  sk_height : nat;
  sk_has_pixel_ref : bool
}.

(** SkBitmap::drawsNothing(): empty() || isNull(). *)
Definition drawsNothing (b : SkBitmap) : bool :=
  (Nat.eqb (sk_width b) 0 || Nat.eqb (sk_height b) 0) || negb (sk_has_pixel_ref b).

(** content::PlatformNotificationData, after UTF16ToUTF8. *)
Record PlatformNotificationData := {
  title : string;
  body : string
}.

(** [has_cancel_callback]: cancel_callback is non-null;
    [show_error]: notify_notification_show sets the GError. *)
Definition ShowNotification (hs : host) (data : PlatformNotificationData)
  (icon : SkBitmap) (delegate_ptr : delegate) (has_cancel_callback : bool)
  (show_error : bool) : M unit :=
  notification <- notify_notification_new (title data) (body data) ;;
  g_object_set_data_full notification delegate_ptr ;;
  emit [EvConnectClosed notification] ;;
  u <- unity_is_running hs ;;
  (if negb u then emit [EvAddAction notification "default" "View"] else ret tt) ;;
  (if negb (drawsNothing icon) then
     emit [EvPixbufFromSkBitmap; EvSetImageFromPixbuf notification;
           EvSetTimeout notification; EvUnrefPixbuf]
   else ret tt) ;;
  emit [EvShow notification] ;;
  if show_error then
    log_and_clear_error "notify_notification_show" ;;
    g_object_unref notification
  else
    modify (fun w => set_notifications (g_list_append (notifications w) notification) w) ;;
    emit [EvDisplayed delegate_ptr] ;;
    (if has_cancel_callback then emit [EvSetCancelCallback notification] else ret tt).

Definition DeleteNotification (notification : handle) : M unit :=
  modify (fun w => set_notifications (g_list_remove (notifications w) notification) w) ;;
  g_object_unref notification.

(** [close_error]: notify_notification_close sets the GError. *)
Definition CancelNotification (notification : handle) (close_error : bool) : M unit :=
  emit [EvClose notification] ;;
  (if close_error then log_and_clear_error "notify_notification_close" else ret tt) ;;
  d <- GetDelegateFromNotification notification ;;
  emit [EvClosed d] ;;
  DeleteNotification notification.

Definition OnNotificationClosed (notification : option handle) : M unit :=
  match notification with
  | None => ret tt
  | Some n =>
      d <- GetDelegateFromNotification n ;;
      emit [EvClosed d] ;;
      DeleteNotification n
  end.

Definition OnNotificationView (notification : option handle) : M unit :=
  match notification with
  | None => ret tt
  | Some n =>
      d <- GetDelegateFromNotification n ;;
      emit [EvClick d] ;;
      DeleteNotification n
  end.

(** Every entry point of a running presenter. *)
Inductive op :=
| OpShow (hs : host) (data : PlatformNotificationData) (icon : SkBitmap)
    (d : delegate) (has_cancel_callback show_error : bool)
| OpCancel (n : handle) (close_error : bool)
| OpClosed (n : option handle)
| OpView (n : option handle).

Definition step (o : op) : M unit :=
  match o with
  | OpShow hs data icon d cb err => ShowNotification hs data icon d cb err
  | OpCancel n err => CancelNotification n err
  | OpClosed n => OnNotificationClosed n
  | OpView n => OnNotificationView n
  end.

(** Well-formed worlds: the GList has no duplicates, every tracked
    notification is a live object carrying its delegate, and every live
    object lies below the allocator. *)
Definition wf (w : world) : Prop :=
  NoDup (notifications w) /\
  (forall h, In h (notifications w) -> exists d, object_data (live w) h = Some (Some d)) /\
  (forall h v, In (h, v) (live w) -> h < next_handle w).

Definition world_init : world :=
  {| notifications := []; live := []; next_handle := 1;
     unity := unity_cache_init; trace := [] |}.

(** An executable check of [wf]. *)
Fixpoint nodupb (l : list handle) : bool :=
  match l with
  | [] => true
  | x :: rest => negb (existsb (Nat.eqb x) rest) && nodupb rest
  end.

Definition wfb (w : world) : bool :=
  nodupb (notifications w)
  && forallb (fun h => match object_data (live w) h with
                       | Some (Some _) => true
                       | _ => false
                       end) (notifications w)
  && forallb (fun kv => Nat.ltb (fst kv) (next_handle w)) (live w).

Definition is_show (e : event) : bool :=
  match e with EvShow _ => true | _ => false end.

(** Successive calls of UnityIsRunning in one process: each call gives the
    environment variable's state and what /usr/lib would enumerate. *)
Fixpoint run_unity (c : unity_cache) (calls : list (bool * list string))
  : list bool * list event :=
  match calls with
  | [] => ([], [])
  | (env_set, usr_lib) :: rest =>
      let '(r, c', evs) := UnityIsRunning env_set usr_lib c in
      let '(rs, evs') := run_unity c' rest in
      (r :: rs, evs ++ evs')
  end.

(** The /usr/lib listing of the first call made without the variable set. *)
Fixpoint first_enumeration (calls : list (bool * list string)) : list string :=
  match calls with
  | [] => []
  | (env_set, usr_lib) :: rest => if env_set then first_enumeration rest else usr_lib
  end.

(** The UnityIsRunning globals after a sequence of calls. *)
Fixpoint unity_cache_after (c : unity_cache) (calls : list (bool * list string))
  : unity_cache :=
  match calls with
  | [] => c
  | (env_set, usr_lib) :: rest =>
      let '(_, c', _) := UnityIsRunning env_set usr_lib c in
      unity_cache_after c' rest
  end.

Definition unity_cache_ok (c : unity_cache) : Prop :=
  unity_has_result c = false -> unity_result c = false.

(** ** Executing the entry points symbolically *)

(** Events ShowNotification emits up to and including notify_notification_show. *)
Definition show_prefix (h : handle) (data : PlatformNotificationData) (icon : SkBitmap)
  (d : delegate) (u : bool) (unity_evs : list event) : list event :=
  [EvNotificationNew h (title data) (body data); EvSetDelegateData h d; EvConnectClosed h]
  ++ unity_evs
  ++ (if negb u then [EvAddAction h "default" "View"] else [])
  ++ (if negb (drawsNothing icon)
      then [EvPixbufFromSkBitmap; EvSetImageFromPixbuf h; EvSetTimeout h; EvUnrefPixbuf]
      else [])
  ++ [EvShow h].

Definition show_result (hs : host) (data : PlatformNotificationData) (icon : SkBitmap)
  (d : delegate) (cb err : bool) (w : world) : world :=
  let h := next_handle w in
  let '(u, c', unity_evs) := UnityIsRunning (env_ubuntu_notifier hs) (usr_lib_files hs) (unity w) in
  let pre := show_prefix h data icon d u unity_evs in
  let objs := update_object ((h, None) :: live w) h d in
  if err then
    {| notifications := notifications w; live := free_object objs h;
       next_handle := S h; unity := c';
       trace := trace w ++ pre ++ [EvLogError "notify_notification_show"; EvUnref h] |}
  else
    {| notifications := notifications w ++ [h]; live := objs;
       next_handle := S h; unity := c';
       trace := trace w ++ pre ++ [EvDisplayed d]
                ++ (if cb then [EvSetCancelCallback h] else []) |}.

(** World after DeleteNotification, preceded by the events [evs]. *)
Definition removal_result (n : handle) (evs : list event) (w : world) : world :=
  {| notifications := g_list_remove (notifications w) n;
     live := free_object (live w) n;
     next_handle := next_handle w; unity := unity w;
     trace := trace w ++ evs ++ [EvUnref n] |}.

Ltac run_monad :=
  unfold GetDelegateFromNotification, DeleteNotification, g_object_unref,
    log_and_clear_error, emit, bind, gets, modify, ret,
    set_notifications, set_live, add_trace, removal_result, free_object;
  cbn.

Definition c1_host : host :=
  {| env_ubuntu_notifier := false; usr_lib_files := ["/usr/lib/libc.so.6"] |}.
Definition c1_data : PlatformNotificationData := {| title := "t"; body := "b" |}.
Definition c1_icon : SkBitmap := {| sk_width := 0; sk_height := 0; sk_has_pixel_ref := false |}.

(** The world of a presenter that shows notification 1 for delegate 7. *)
Definition one_tracked : world :=
  {| notifications := [1]; live := [(1, Some 7)]; next_handle := 2;
     unity := unity_cache_init; trace := [] |}.

Definition c6_calls : list (bool * list string) :=
  [(true, []);
   (false, ["/usr/lib/libc.so.6"; "/usr/lib/libunity-protocol-private.so.0"]);
   (false, []);
   (true, ["/usr/lib/libc.so.6"])].

(** ~NotificationPresenterLinux: [g_list_free_full(notifications_,
    g_object_unref)] unrefs every element in list order; afterwards the
    presenter, and with it [notifications_], is gone (modelled as the empty
    list). *)
Fixpoint g_list_free_full_unref (l : list handle) : M unit :=
  match l with
  | [] => ret tt
  | h :: rest => g_object_unref h ;; g_list_free_full_unref rest
  end.

Definition DestroyNotificationPresenterLinux : M unit :=
  l <- gets notifications ;;
  (match l with
   | [] => ret tt
   | _ => g_list_free_full_unref l
   end) ;;
  modify (set_notifications []).

(** A sequence of entry points, and the worlds a presenter can reach from a
    fresh process. *)
Fixpoint run (ops : list op) : M unit :=
  match ops with
  | [] => ret tt
  | o :: rest => step o ;; run rest
  end.

Definition reachable (w : world) : Prop :=
  exists ops, run ops world_init = Some (tt, w).

(** Every live notification object is tracked. *)
Definition no_untracked (w : world) : Prop :=
  forall h v, In (h, v) (live w) -> In h (notifications w).

(** The notification an entry point acts on, for the ones that release it:
    CancelNotification and the two libnotify callbacks. *)
Definition op_target (o : op) : option handle :=
  match o with
  | OpShow _ _ _ _ _ _ => None
  | OpCancel n _ => Some n
  | OpClosed p => p
  | OpView p => p
  end.

Definition c10_calls : list (bool * list string) :=
  [(true, ["/usr/lib/libunity-9.so"]); (true, [])].

Definition c10_cache : unity_cache :=
  {| unity_has_result := true; unity_result := false |}.

Lemma ShowNotification_run hs data icon d cb err w :
  ShowNotification hs data icon d cb err w = Some (tt, show_result hs data icon d cb err w).
Proof.
  unfold ShowNotification, show_result, show_prefix, unity_is_running,
    notify_notification_new, g_object_set_data_full, g_object_unref,
    log_and_clear_error, emit, bind, gets, modify, ret,
    set_notifications, set_live, set_next_handle, set_unity, add_trace,
    free_object, update_object.
  cbn.
  rewrite Nat.eqb_refl.
  destruct (UnityIsRunning _ _ _) as [[u c'] evs].
  destruct u, (drawsNothing icon), err, cb;
    cbn; rewrite ?Nat.eqb_refl; cbn; repeat rewrite <- app_assoc; reflexivity.
Qed.

Lemma g_list_remove_In l n x : In x (g_list_remove l n) -> In x l.
Proof.
  induction l as [|y l IH]; cbn; [tauto|].
  destruct (Nat.eqb_spec y n); cbn; intuition.
Qed.

Lemma g_list_remove_NoDup l n : NoDup l -> NoDup (g_list_remove l n).
Proof.
  induction l as [|y l IH]; cbn; intros Hnd; [constructor|].
  inversion Hnd; subst.
  destruct (Nat.eqb_spec y n); [assumption|].
  constructor; [|auto].
  intros Hin; apply g_list_remove_In in Hin; contradiction.
Qed.

Lemma g_list_remove_iff l n x :
  NoDup l -> (In x (g_list_remove l n) <-> In x l /\ x <> n).
Proof.
  induction l as [|y l IH]; cbn; intros Hnd; [tauto|].
  inversion Hnd; subst.
  destruct (Nat.eqb_spec y n) as [->|Hne]; cbn.
  - split.
    + intros Hx; split; [auto|intros ->; contradiction].
    + intros [[->|Hx] Hne]; [congruence|assumption].
  - rewrite IH by assumption.
    split.
    + intros [->|[Hx Hxn]]; auto.
    + intros [[->|Hx] Hxn]; auto.
Qed.

Lemma object_data_free o h x :
  object_data (free_object o h) x = if Nat.eqb x h then None else object_data o x.
Proof.
  unfold free_object.
  induction o as [|[k v] o IH]; cbn.
  - destruct (Nat.eqb x h); reflexivity.
  - destruct (Nat.eqb_spec k h) as [->|Hne]; cbn; rewrite IH.
    + destruct (Nat.eqb_spec x h), (Nat.eqb_spec h x); congruence.
    + destruct (Nat.eqb_spec k x), (Nat.eqb_spec x h); congruence.
Qed.

Lemma object_data_update o h d x :
  x <> h -> object_data (update_object o h d) x = object_data o x.
Proof.
  intros Hne; induction o as [|[k v] o IH]; cbn; [reflexivity|].
  destruct (Nat.eqb_spec k h) as [->|Hk]; cbn.
  - destruct (Nat.eqb_spec h x); [congruence|exact IH].
  - destruct (Nat.eqb k x); [reflexivity|exact IH].
Qed.

Lemma In_free_object o h k v : In (k, v) (free_object o h) -> In (k, v) o.
Proof. unfold free_object; rewrite filter_In; tauto. Qed.

Lemma In_update_object o h d k v :
  In (k, v) (update_object o h d) -> exists v', In (k, v') o.
Proof.
  unfold update_object; rewrite in_map_iff.
  intros [[k' v'] [Heq Hin]]; cbn in Heq.
  destruct (Nat.eqb_spec k' h) as [->|Hne]; inversion Heq; subst; eauto.
Qed.

Lemma object_data_In o h v : object_data o h = Some v -> In (h, v) o.
Proof.
  induction o as [|[k v'] o IH]; cbn; [discriminate|].
  destruct (Nat.eqb_spec k h) as [->|Hne]; intros Hd.
  - inversion Hd; subst; auto.
  - auto.
Qed.

Lemma CancelNotification_run n e d w :
  object_data (live w) n = Some (Some d) ->
  CancelNotification n e w =
  Some (tt, removal_result n
              ([EvClose n] ++ (if e then [EvLogError "notify_notification_close"] else [])
               ++ [EvClosed d]) w).
Proof.
  intros Hd; unfold CancelNotification.
  destruct e; run_monad; rewrite Hd; cbn; rewrite Hd; cbn;
    repeat rewrite <- app_assoc; reflexivity.
Qed.

Lemma OnNotificationClosed_run n d w :
  object_data (live w) n = Some (Some d) ->
  OnNotificationClosed (Some n) w = Some (tt, removal_result n [EvClosed d] w).
Proof.
  intros Hd; unfold OnNotificationClosed.
  run_monad; rewrite Hd; cbn; rewrite Hd; cbn;
    repeat rewrite <- app_assoc; reflexivity.
Qed.

Lemma OnNotificationView_run n d w :
  object_data (live w) n = Some (Some d) ->
  OnNotificationView (Some n) w = Some (tt, removal_result n [EvClick d] w).
Proof.
  intros Hd; unfold OnNotificationView.
  run_monad; rewrite Hd; cbn; rewrite Hd; cbn;
    repeat rewrite <- app_assoc; reflexivity.
Qed.

(** A callback on a handle that is not a live object is undefined behaviour. *)
Lemma removal_step_inv o n w w' :
  (o = OpCancel n true \/ o = OpCancel n false \/ o = OpClosed (Some n) \/ o = OpView (Some n)) ->
  step o w = Some (tt, w') ->
  exists d evs, object_data (live w) n = Some (Some d) /\ w' = removal_result n evs w
    /\ Forall (fun e => e = EvClose n \/ e = EvLogError "notify_notification_close"
                       \/ e = EvClosed d \/ e = EvClick d) evs.
Proof.
  intros Ho Hs.
  destruct (object_data (live w) n) as [[d|]|] eqn:Hd.
  - exists d.
    destruct Ho as [-> | [-> | [-> | ->]]]; unfold step in Hs;
      [rewrite (CancelNotification_run n true d w Hd) in Hs
      |rewrite (CancelNotification_run n false d w Hd) in Hs
      |rewrite (OnNotificationClosed_run n d w Hd) in Hs
      |rewrite (OnNotificationView_run n d w Hd) in Hs];
      (inversion Hs; eexists; split; [reflexivity|split; [reflexivity|]];
       repeat constructor; tauto).
  - exfalso.
    destruct Ho as [-> | [-> | [-> | ->]]]; unfold step in Hs;
      revert Hs; unfold CancelNotification, OnNotificationClosed, OnNotificationView;
      run_monad; rewrite Hd; discriminate.
  - exfalso.
    destruct Ho as [-> | [-> | [-> | ->]]]; unfold step in Hs;
      revert Hs; unfold CancelNotification, OnNotificationClosed, OnNotificationView;
      run_monad; rewrite Hd; discriminate.
Qed.

Lemma wf_next_fresh w : wf w -> ~ In (next_handle w) (notifications w).
Proof.
  intros (_ & Htr & Hlt) Hin.
  destruct (Htr _ Hin) as [d Hd].
  apply object_data_In, Hlt in Hd; lia.
Qed.

Lemma wf_removal n evs w : wf w -> wf (removal_result n evs w).
Proof.
  intros (Hnd & Htr & Hlt); unfold removal_result, wf; cbn.
  split; [|split].
  - now apply g_list_remove_NoDup.
  - intros x Hx; rewrite g_list_remove_iff in Hx by assumption.
    destruct Hx as [Hx Hxn].
    rewrite object_data_free; destruct (Nat.eqb_spec x n); [contradiction|].
    auto.
  - intros h v Hin; apply In_free_object in Hin; eauto.
Qed.

Lemma wf_show hs data icon d cb err w :
  wf w -> wf (show_result hs data icon d cb err w).
Proof.
  intros Hwf; pose proof (wf_next_fresh w Hwf) as Hfresh.
  destruct Hwf as (Hnd & Htr & Hlt).
  unfold show_result.
  destruct (UnityIsRunning _ _ _) as [[u c'] evs].
  assert (Hkeep : forall x, In x (notifications w) ->
            object_data (update_object ((next_handle w, None) :: live w) (next_handle w) d) x
            = object_data (live w) x).
  { intros x Hx. rewrite object_data_update.
    - cbn. destruct (Nat.eqb_spec (next_handle w) x); [subst; contradiction|reflexivity].
    - intros ->; contradiction. }
  assert (Hbound : forall k v,
            In (k, v) (update_object ((next_handle w, None) :: live w) (next_handle w) d) ->
            k < S (next_handle w)).
  { intros k v Hin. apply In_update_object in Hin as [v' [Hin|Hin]].
    - inversion Hin; lia.
    - apply Hlt in Hin; lia. }
  destruct err; unfold wf; cbn [notifications live next_handle].
  - split; [assumption|split].
    + intros x Hx. rewrite object_data_free.
      destruct (Nat.eqb_spec x (next_handle w)); [subst; contradiction|].
      rewrite Hkeep by assumption; auto.
    + intros k v Hin; apply In_free_object in Hin; eauto.
  - split; [|split].
    + apply NoDup_app; [assumption|repeat constructor; cbn; tauto|].
      intros a Ha [<-|[]]; contradiction.
    + intros x Hx; apply in_app_or in Hx as [Hx|[<-|[]]].
      * rewrite Hkeep by assumption; auto.
      * exists d; cbn; rewrite Nat.eqb_refl; cbn; rewrite Nat.eqb_refl; reflexivity.
    + exact Hbound.
Qed.

Lemma wf_world_init : wf world_init.
Proof.
  unfold wf, world_init; cbn; split; [constructor|split]; intros; contradiction.
Qed.

Lemma nodupb_sound l : nodupb l = true -> NoDup l.
Proof.
  induction l as [|x l IH]; cbn; intros H; [constructor|].
  apply andb_prop in H as [Hx Hl].
  constructor; [|auto].
  intros Hin; apply negb_true_iff in Hx.
  assert (existsb (Nat.eqb x) l = true) by (apply existsb_exists; exists x; split; [assumption|apply Nat.eqb_refl]).
  congruence.
Qed.

Lemma wfb_sound w : wfb w = true -> wf w.
Proof.
  unfold wfb, wf; intros H.
  apply andb_prop in H as [H Hlt]; apply andb_prop in H as [Hnd Htr].
  split; [|split].
  - now apply nodupb_sound.
  - intros h Hh; rewrite forallb_forall in Htr; specialize (Htr h Hh).
    destruct (object_data (live w) h) as [[d|]|]; [eauto|discriminate|discriminate].
  - intros h v Hin; rewrite forallb_forall in Hlt; specialize (Hlt (h, v) Hin).
    now apply Nat.ltb_lt in Hlt.
Qed.

Lemma UnityIsRunning_events e f c :
  snd (UnityIsRunning e f c) = [] \/ snd (UnityIsRunning e f c) = [EvScanUsrLib].
Proof.
  unfold UnityIsRunning; destruct e, (unity_has_result c); cbn; auto.
Qed.

(** ** Claims *)

(** C1: the tracked list changes only as libnotify's open set does.  A
    successful ShowNotification appends the fresh handle; a failed one leaves
    the list as it is; CancelNotification, the "closed" callback and the
    "default" action callback remove exactly their handle; a null callback
    changes nothing.  Well-formedness is preserved, so this holds along any
    run. *)
Theorem tracked_list_membership (o : op) (w w' : world) :
  wf w -> step o w = Some (tt, w') ->
  wf w' /\
  match o with
  | OpShow _ _ _ _ _ err =>
      if err then notifications w' = notifications w
      else notifications w' = notifications w ++ [next_handle w]
           /\ ~ In (next_handle w) (notifications w)
  | OpCancel n _ | OpClosed (Some n) | OpView (Some n) =>
      forall x, In x (notifications w') <-> In x (notifications w) /\ x <> n
  | OpClosed None | OpView None => notifications w' = notifications w
  end.
Proof.
  intros Hwf Hs.
  assert (Hrem : forall n evs, w' = removal_result n evs w ->
            wf w' /\ forall x, In x (notifications w') <-> In x (notifications w) /\ x <> n).
  { intros n evs ->; split; [now apply wf_removal|].
    intros x; cbn; apply g_list_remove_iff, Hwf. }
  destruct o as [hs data icon d cb err|n err|[n|]|[n|]].
  - unfold step in Hs; rewrite ShowNotification_run in Hs; inversion Hs; subst w'.
    split; [now apply wf_show|].
    pose proof (wf_next_fresh w Hwf).
    unfold show_result; destruct (UnityIsRunning _ _ _) as [[u c'] evs].
    destruct err; cbn; auto.
  - destruct (removal_step_inv (OpCancel n err) n w w') as (d & evs & _ & Heq & _);
      [destruct err; tauto|assumption|].
    eapply Hrem; eauto.
  - destruct (removal_step_inv (OpClosed (Some n)) n w w') as (d & evs & _ & Heq & _);
      [tauto|assumption|].
    eapply Hrem; eauto.
  - cbn in Hs; inversion Hs; subst; auto.
  - destruct (removal_step_inv (OpView (Some n)) n w w') as (d & evs & _ & Heq & _);
      [tauto|assumption|].
    eapply Hrem; eauto.
  - cbn in Hs; inversion Hs; subst; auto.
Qed.

Lemma tracked_list_membership_witness :
  wf world_init
  /\ step (OpShow c1_host c1_data c1_icon 7 true false) world_init
     = Some (tt, show_result c1_host c1_data c1_icon 7 true false world_init)
  /\ wf (show_result c1_host c1_data c1_icon 7 true false world_init)
  /\ notifications (show_result c1_host c1_data c1_icon 7 true false world_init)
     = notifications world_init ++ [next_handle world_init]
  /\ ~ In (next_handle world_init) (notifications world_init).
Proof.
  assert (Hwf : wf world_init) by (apply wfb_sound; vm_compute; reflexivity).
  assert (Hs : step (OpShow c1_host c1_data c1_icon 7 true false) world_init
               = Some (tt, show_result c1_host c1_data c1_icon 7 true false world_init))
    by (vm_compute; reflexivity).
  split; [exact Hwf|split; [exact Hs|]].
  exact (tracked_list_membership _ world_init _ Hwf Hs).
Defined.

(** C2: when notify_notification_show reports an error, ShowNotification
    logs it and gives up: the tracked list is unchanged, the notification
    object (and with it the delegate) is released, NotificationDisplayed is
    not called, no cancel callback is installed, and show is called once. *)
Theorem show_error_abandons hs data icon d cb w :
  exists w' evs,
    step (OpShow hs data icon d cb true) w = Some (tt, w')
    /\ trace w' = trace w ++ evs
    /\ notifications w' = notifications w
    /\ object_data (live w') (next_handle w) = None
    /\ In (EvLogError "notify_notification_show") evs
    /\ (forall d', ~ In (EvDisplayed d') evs)
    /\ (forall h, ~ In (EvSetCancelCallback h) evs)
    /\ filter is_show evs = [EvShow (next_handle w)].
Proof.
  exists (show_result hs data icon d cb true w).
  unfold step; rewrite ShowNotification_run.
  unfold show_result.
  pose proof (UnityIsRunning_events (env_ubuntu_notifier hs) (usr_lib_files hs) (unity w)) as Hev.
  destruct (UnityIsRunning _ _ _) as [[u c'] evs]; cbn in Hev.
  eexists; split; [reflexivity|split; [reflexivity|]].
  split; [reflexivity|].
  split; [cbn [live]; rewrite object_data_free, Nat.eqb_refl; reflexivity|].
  unfold show_prefix.
  destruct Hev as [-> | ->], u, (drawsNothing icon); cbn;
    repeat split; intros; intuition discriminate.
Qed.

(** C3 as stated fails: cancelling notification 1 while notify_notification_close
    reports an error still calls NotificationClosed and untracks the handle. *)
Lemma cancel_close_error_counterexample :
  exists w', step (OpCancel 1 true) one_tracked = Some (tt, w')
             /\ In (EvClosed 7) (trace w') /\ ~ In 1 (notifications w').
Proof.
  eexists; split; [vm_compute; reflexivity|].
  cbn; split; [tauto|intros []].
Qed.

(** C3 (amended): when notify_notification_close reports an error on a
    tracked notification, CancelNotification logs it and carries on: the
    delegate's NotificationClosed is called, the handle is removed from the
    tracked list and the notification is released. *)
Theorem cancel_close_error_proceeds w n :
  wf w -> In n (notifications w) ->
  exists d w',
    object_data (live w) n = Some (Some d)
    /\ step (OpCancel n true) w = Some (tt, w')
    /\ trace w' = trace w ++ [EvClose n; EvLogError "notify_notification_close";
                             EvClosed d; EvUnref n]
    /\ (forall x, In x (notifications w') <-> In x (notifications w) /\ x <> n).
Proof.
  intros Hwf Hn.
  destruct Hwf as (Hnd & Htr & Hlt) eqn:E.
  destruct (Htr n Hn) as [d Hd].
  exists d, (removal_result n [EvClose n; EvLogError "notify_notification_close"; EvClosed d] w).
  split; [exact Hd|split; [|split]].
  - unfold step; rewrite (CancelNotification_run n true d w Hd); reflexivity.
  - unfold removal_result; cbn; reflexivity.
  - intros x; cbn; apply g_list_remove_iff, Hnd.
Qed.

Lemma cancel_close_error_proceeds_witness :
  wf one_tracked /\ In 1 (notifications one_tracked)
  /\ exists d w',
       object_data (live one_tracked) 1 = Some (Some d)
       /\ step (OpCancel 1 true) one_tracked = Some (tt, w')
       /\ trace w' = trace one_tracked ++ [EvClose 1; EvLogError "notify_notification_close";
                                          EvClosed d; EvUnref 1]
       /\ (forall x, In x (notifications w') <-> In x (notifications one_tracked) /\ x <> 1).
Proof.
  assert (Hwf : wf one_tracked) by (apply wfb_sound; vm_compute; reflexivity).
  assert (Hin : In 1 (notifications one_tracked)) by (cbn; tauto).
  split; [exact Hwf|split; [exact Hin|]].
  exact (cancel_close_error_proceeds one_tracked 1 Hwf Hin).
Defined.

(** C4: lifecycle events reach the notification's delegate.  For every
    world, a successful show stores the delegate on the new notification,
    tracks it, and calls NotificationDisplayed on that delegate among the
    events of this call; for a tracked notification [n] of a well-formed
    world, the "closed" callback calls NotificationClosed and the "default"
    action callback calls NotificationClick on the delegate stored on [n]. *)
Theorem lifecycle_relayed_to_delegate :
  (forall hs data icon d cb w,
     exists w' evs,
       step (OpShow hs data icon d cb false) w = Some (tt, w')
       /\ trace w' = trace w ++ evs
       /\ object_data (live w') (next_handle w) = Some (Some d)
       /\ In (next_handle w) (notifications w')
       /\ In (EvDisplayed d) evs)
  /\ (forall w n, wf w -> In n (notifications w) ->
        (exists d w', object_data (live w) n = Some (Some d)
                      /\ step (OpClosed (Some n)) w = Some (tt, w')
                      /\ trace w' = trace w ++ [EvClosed d; EvUnref n])
        /\ (exists d w', object_data (live w) n = Some (Some d)
                         /\ step (OpView (Some n)) w = Some (tt, w')
                         /\ trace w' = trace w ++ [EvClick d; EvUnref n])).
Proof.
  split.
  - intros hs data icon d cb w.
    exists (show_result hs data icon d cb false w).
    unfold show_result; destruct (UnityIsRunning _ _ _) as [[u c'] uevs] eqn:HU.
    exists (show_prefix (next_handle w) data icon d u uevs
            ++ [EvDisplayed d] ++ (if cb then [EvSetCancelCallback (next_handle w)] else [])).
    split.
    { unfold step; rewrite ShowNotification_run; unfold show_result; rewrite HU; reflexivity. }
    cbn [live notifications trace].
    split; [reflexivity|].
    split; [cbn; rewrite !Nat.eqb_refl; reflexivity|].
    split; [apply in_or_app; right; left; reflexivity|].
    apply in_or_app; right; left; reflexivity.
  - intros w n Hwf Hn.
    destruct Hwf as (Hnd & Htr & Hlt) eqn:E.
    destruct (Htr n Hn) as [d Hd].
    split.
    + exists d, (removal_result n [EvClosed d] w).
      split; [exact Hd|split; [|reflexivity]].
      unfold step; apply OnNotificationClosed_run, Hd.
    + exists d, (removal_result n [EvClick d] w).
      split; [exact Hd|split; [|reflexivity]].
      unfold step; apply OnNotificationView_run, Hd.
Qed.

(** Instance: the first notification of a fresh presenter, and the callbacks
    on a tracked one. *)
Lemma lifecycle_relayed_to_delegate_witness :
  (exists w' evs,
     step (OpShow c1_host c1_data c1_icon 7 true false) world_init = Some (tt, w')
     /\ trace w' = trace world_init ++ evs
     /\ object_data (live w') (next_handle world_init) = Some (Some 7)
     /\ In (next_handle world_init) (notifications w')
     /\ In (EvDisplayed 7) evs)
  /\ wf one_tracked /\ In 1 (notifications one_tracked)
  /\ (exists d w', object_data (live one_tracked) 1 = Some (Some d)
                   /\ step (OpClosed (Some 1)) one_tracked = Some (tt, w')
                   /\ trace w' = trace one_tracked ++ [EvClosed d; EvUnref 1])
  /\ (exists d w', object_data (live one_tracked) 1 = Some (Some d)
                   /\ step (OpView (Some 1)) one_tracked = Some (tt, w')
                   /\ trace w' = trace one_tracked ++ [EvClick d; EvUnref 1]).
Proof.
  assert (Hwf : wf one_tracked) by (apply wfb_sound; vm_compute; reflexivity).
  assert (Hin : In 1 (notifications one_tracked)) by (cbn; tauto).
  destruct lifecycle_relayed_to_delegate as [Hshow Hcb].
  split; [exact (Hshow c1_host c1_data c1_icon 7 true world_init)|].
  split; [exact Hwf|split; [exact Hin|]].
  exact (Hcb one_tracked 1 Hwf Hin).
Defined.

(** C5: NotificationPresenter::Create returns a presenter exactly when the
    first of "libnotify.so.4", "libnotify.so.1", "libnotify.so" (tried in
    that order) that loads is already initialised or accepts notify_init with
    the application name; the names tried are a prefix of that list. *)
Theorem Create_succeeds_iff sys app_name :
  ((exists p, Create sys app_name = Some p)
   <-> exists lib, find (lib_loads sys) libnotify_names = Some lib
                   /\ (lib_is_initted sys lib = true \/ lib_init sys lib app_name = true))
  /\ (Create sys app_name = None
      <-> forall lib, find (lib_loads sys) libnotify_names = Some lib ->
                      lib_is_initted sys lib = false /\ lib_init sys lib app_name = false)
  /\ exists rest, init_tried (Init sys app_name) ++ rest = libnotify_names.
Proof.
  unfold Create, Init, libnotify_names; cbn.
  destruct (lib_loads sys "libnotify.so.4") eqn:H4;
    [|destruct (lib_loads sys "libnotify.so.1") eqn:H1;
      [|destruct (lib_loads sys "libnotify.so") eqn:H0]]; cbn.
  all: try (split; [split; [intros [p Hp]; discriminate
                           |intros (lib & Hf & _); discriminate]
                   |split; [split; [intros _ ? Hf; discriminate|intros _; reflexivity]
                           |eexists; reflexivity]]).
  all: match goal with
       | |- context [lib_is_initted ?s ?l] =>
           destruct (lib_is_initted s l) eqn:Hi; cbn;
           [|destruct (lib_init s l app_name) eqn:Hn; cbn]
       end.
  all: split; [split|split; [split|eexists; reflexivity]].
  all: first
    [ intros _; eexists; split; [reflexivity|tauto]
    | intros _; eexists; reflexivity
    | intros [p Hp]; discriminate
    | intros (lib & Hf & [Hx|Hx]); inversion Hf; subst; congruence
    | intros Hp; discriminate
    | intros Hall; destruct (Hall _ eq_refl); congruence
    | intros _; reflexivity
    | intros Hall; exfalso; destruct (Hall _ eq_refl); congruence
    | intros _ lib Hf; inversion Hf; subst; auto ].
Qed.

Lemma run_unity_nth calls : forall c i e f,
  unity_cache_ok c ->
  nth_error calls i = Some (e, f) ->
  nth_error (fst (run_unity c calls)) i =
  Some (if e then true
        else if unity_has_result c then unity_result c
        else scan_usr_lib (first_enumeration calls)).
Proof.
  induction calls as [|[e0 f0] rest IH]; intros c i e f Hok Hi.
  - destruct i; discriminate.
  - cbn [run_unity first_enumeration].
    unfold UnityIsRunning.
    destruct e0; [|destruct (unity_has_result c) eqn:Hh].
    + destruct (run_unity c rest) as [rs evs'] eqn:Hr.
      destruct i as [|i]; cbn in Hi |- *.
      * inversion Hi; subst; reflexivity.
      * specialize (IH c i e f Hok Hi); rewrite Hr in IH; exact IH.
    + destruct (run_unity c rest) as [rs evs'] eqn:Hr.
      destruct i as [|i]; cbn in Hi |- *.
      * inversion Hi; subst; reflexivity.
      * specialize (IH c i e f Hok Hi); rewrite Hr, Hh in IH; exact IH.
    + rewrite (Hok Hh).
      destruct (scan_usr_lib f0) eqn:Hs;
      match goal with
      | |- context [run_unity ?c' rest] =>
          destruct (run_unity c' rest) as [rs evs'] eqn:Hr;
          destruct i as [|i]; cbn in Hi |- *;
          [inversion Hi; subst; rewrite ?Hs; reflexivity
          |assert (Hok' : unity_cache_ok c') by (unfold unity_cache_ok; cbn; congruence);
           specialize (IH c' i e f Hok' Hi); rewrite Hr in IH; exact IH]
      end.
Qed.

Lemma run_unity_cached_silent calls : forall c,
  unity_has_result c = true -> snd (run_unity c calls) = [].
Proof.
  induction calls as [|[e0 f0] rest IH]; intros c Hh; cbn; [reflexivity|].
  unfold UnityIsRunning; destruct e0; rewrite ?Hh;
    destruct (run_unity c rest) as [rs evs'] eqn:Hr;
    specialize (IH c Hh); rewrite Hr in IH; cbn in IH |- *; exact IH.
Qed.

Lemma run_unity_scans calls : forall c,
  List.length (snd (run_unity c calls)) <= if unity_has_result c then 0 else 1.
Proof.
  induction calls as [|[e0 f0] rest IH]; intros c; cbn; [destruct (unity_has_result c); lia|].
  unfold UnityIsRunning; destruct e0; [|destruct (unity_has_result c) eqn:Hh].
  - destruct (run_unity c rest) as [rs evs'] eqn:Hr.
    specialize (IH c); rewrite Hr in IH; exact IH.
  - destruct (run_unity c rest) as [rs evs'] eqn:Hr.
    pose proof (run_unity_cached_silent rest c Hh) as Hs; rewrite Hr in Hs; cbn in Hs |- *.
    subst; cbn; lia.
  - match goal with
    | |- context [run_unity ?c' rest] =>
        destruct (run_unity c' rest) as [rs evs'] eqn:Hr;
        pose proof (run_unity_cached_silent rest c' eq_refl) as Hs;
        rewrite Hr in Hs; cbn in Hs |- *; subst; cbn; lia
    end.
Qed.

Lemma scan_usr_lib_existsb paths :
  Forall (fun p => p <> "") paths ->
  scan_usr_lib paths = existsb (String.prefix "/usr/lib/libunity-") paths.
Proof.
  induction paths as [|p rest IH]; intros Hne; cbn; [reflexivity|].
  inversion Hne; subst.
  destruct (String.eqb_spec p ""); [contradiction|].
  destruct (String.prefix "/usr/lib/libunity-" p); cbn; auto.
Qed.

Lemma first_enumeration_from calls (P : list string -> Prop) :
  P [] -> Forall (fun call => P (snd call)) calls -> P (first_enumeration calls).
Proof.
  intros Hnil; induction calls as [|[e f] rest IH]; intros Hall; cbn; [exact Hnil|].
  inversion Hall; subst; destruct e; auto.
Qed.

(** C6: over the calls made in one process, UnityIsRunning returns true
    whenever ELECTRON_USE_UBUNTU_NOTIFIER is set, and otherwise returns
    whether the one enumeration of /usr/lib (made at the first call without
    the variable) listed a path starting with "/usr/lib/libunity-".  The
    enumerator yields non-empty paths. *)
Theorem UnityIsRunning_detects calls i env_set usr_lib :
  nth_error calls i = Some (env_set, usr_lib) ->
  Forall (fun call => Forall (fun p => p <> "") (snd call)) calls ->
  nth_error (fst (run_unity unity_cache_init calls)) i =
  Some (if env_set then true
        else existsb (String.prefix "/usr/lib/libunity-") (first_enumeration calls)).
Proof.
  intros Hi Hne.
  rewrite (run_unity_nth calls unity_cache_init i env_set usr_lib) by (exact Hi || (intros _; reflexivity)).
  cbn [unity_has_result unity_cache_init].
  rewrite scan_usr_lib_existsb; [reflexivity|].
  apply first_enumeration_from; [constructor|exact Hne].
Qed.

Lemma UnityIsRunning_detects_witness :
  nth_error c6_calls 2 = Some (false, [])
  /\ Forall (fun call => Forall (fun p => p <> "") (snd call)) c6_calls
  /\ nth_error (fst (run_unity unity_cache_init c6_calls)) 2 =
     Some (if false then true
           else existsb (String.prefix "/usr/lib/libunity-") (first_enumeration c6_calls)).
Proof.
  assert (Hi : nth_error c6_calls 2 = Some (false, [])) by reflexivity.
  assert (Hne : Forall (fun call => Forall (fun p => p <> "") (snd call)) c6_calls)
    by (repeat constructor; discriminate).
  split; [exact Hi|split; [exact Hne|]].
  exact (UnityIsRunning_detects c6_calls 2 false [] Hi Hne).
Defined.

(** C9: UnityIsRunning caches its detection: a process enumerates /usr/lib
    at most once, and two calls made with the environment variable in the
    same state return the same result. *)
Theorem UnityIsRunning_cached calls i j env_set fi fj :
  nth_error calls i = Some (env_set, fi) ->
  nth_error calls j = Some (env_set, fj) ->
  List.length (filter (fun e => match e with EvScanUsrLib => true | _ => false end)
                      (snd (run_unity unity_cache_init calls))) <= 1
  /\ exists r, nth_error (fst (run_unity unity_cache_init calls)) i = Some r
               /\ nth_error (fst (run_unity unity_cache_init calls)) j = Some r.
Proof.
  intros Hi Hj; split.
  - pose proof (run_unity_scans calls unity_cache_init) as H; cbn in H.
    pose proof (filter_length_le
                  (fun e => match e with EvScanUsrLib => true | _ => false end)
                  (snd (run_unity unity_cache_init calls))); lia.
  - assert (Hok : unity_cache_ok unity_cache_init) by (intros _; reflexivity).
    rewrite (run_unity_nth calls unity_cache_init i env_set fi Hok Hi),
            (run_unity_nth calls unity_cache_init j env_set fj Hok Hj).
    eauto.
Qed.

Lemma UnityIsRunning_cached_witness :
  nth_error c6_calls 1 = Some (false, ["/usr/lib/libc.so.6"; "/usr/lib/libunity-protocol-private.so.0"])
  /\ nth_error c6_calls 2 = Some (false, [])
  /\ List.length (filter (fun e => match e with EvScanUsrLib => true | _ => false end)
                         (snd (run_unity unity_cache_init c6_calls))) <= 1
  /\ exists r, nth_error (fst (run_unity unity_cache_init c6_calls)) 1 = Some r
               /\ nth_error (fst (run_unity unity_cache_init c6_calls)) 2 = Some r.
Proof.
  assert (Hi : nth_error c6_calls 1
               = Some (false, ["/usr/lib/libc.so.6"; "/usr/lib/libunity-protocol-private.so.0"]))
    by reflexivity.
  assert (Hj : nth_error c6_calls 2 = Some (false, [])) by reflexivity.
  split; [exact Hi|split; [exact Hj|]].
  exact (UnityIsRunning_cached c6_calls 1 2 false _ _ Hi Hj).
Defined.

(** C7: a non-empty icon is converted from SkBitmap to a GdkPixbuf and set
    as the notification's image before notify_notification_show; an icon
    that draws nothing is neither converted nor set. *)
Theorem show_icon_converted hs data icon d cb err w :
  exists w' evs,
    step (OpShow hs data icon d cb err) w = Some (tt, w')
    /\ trace w' = trace w ++ evs
    /\ if drawsNothing icon then
         ~ In EvPixbufFromSkBitmap evs /\ (forall h, ~ In (EvSetImageFromPixbuf h) evs)
       else
         exists pre post,
           evs = pre ++ [EvPixbufFromSkBitmap; EvSetImageFromPixbuf (next_handle w)] ++ post
           /\ In (EvShow (next_handle w)) post
           /\ filter is_show pre = [].
Proof.
  exists (show_result hs data icon d cb err w).
  unfold step; rewrite ShowNotification_run.
  unfold show_result.
  pose proof (UnityIsRunning_events (env_ubuntu_notifier hs) (usr_lib_files hs) (unity w)) as Hev.
  destruct (UnityIsRunning _ _ _) as [[u c'] uevs]; cbn in Hev.
  set (h := next_handle w).
  set (tail := if err then [EvLogError "notify_notification_show"; EvUnref h]
               else [EvDisplayed d] ++ (if cb then [EvSetCancelCallback h] else [])).
  exists (show_prefix h data icon d u uevs ++ tail).
  split; [reflexivity|].
  split; [subst tail; destruct err; reflexivity|].
  unfold show_prefix.
  destruct (drawsNothing icon) eqn:Hdn.
  - subst tail; destruct Hev as [-> | ->], u, err, cb; cbn;
      (split; [intuition discriminate|intros h'; intuition discriminate]).
  - exists ([EvNotificationNew h (title data) (body data); EvSetDelegateData h d; EvConnectClosed h]
            ++ uevs ++ (if negb u then [EvAddAction h "default" "View"] else [])).
    exists ([EvSetTimeout h; EvUnrefPixbuf; EvShow h] ++ tail).
    split; [|split].
    + subst tail; cbn; destruct err; repeat rewrite <- app_assoc; reflexivity.
    + cbn; tauto.
    + destruct Hev as [-> | ->], u; reflexivity.
Qed.

(** C8: the "default" action labelled "View" is added by ShowNotification,
    to the new notification, exactly when UnityIsRunning returns false,
    which needs ELECTRON_USE_UBUNTU_NOTIFIER unset; no other entry point adds
    an action. *)
Theorem add_action_iff_not_unity o w w' :
  step o w = Some (tt, w') ->
  exists evs,
    trace w' = trace w ++ evs
    /\ forall h a l,
         In (EvAddAction h a l) evs <->
         match o with
         | OpShow hs _ _ _ _ _ =>
             h = next_handle w /\ a = "default" /\ l = "View"
             /\ env_ubuntu_notifier hs = false
             /\ fst (fst (UnityIsRunning (env_ubuntu_notifier hs) (usr_lib_files hs) (unity w)))
                = false
         | _ => False
         end.
Proof.
  intros Hs.
  assert (Hrem : forall n, (o = OpCancel n true \/ o = OpCancel n false
                            \/ o = OpClosed (Some n) \/ o = OpView (Some n)) ->
            exists evs, trace w' = trace w ++ evs
                        /\ forall h a l, ~ In (EvAddAction h a l) evs).
  { intros n Ho.
    destruct (removal_step_inv o n w w' Ho Hs) as (d & evs & _ & -> & Hall).
    exists (evs ++ [EvUnref n]); split; [reflexivity|].
    intros h a l Hin; apply in_app_or in Hin as [Hin|[Hin|[]]]; [|discriminate].
    rewrite Forall_forall in Hall; destruct (Hall _ Hin) as [E|[E|[E|E]]]; discriminate. }
  destruct o as [hs data icon d cb err|n err|[n|]|[n|]].
  - unfold step in Hs; rewrite ShowNotification_run in Hs; inversion Hs; subst w'.
    unfold show_result.
    pose proof (UnityIsRunning_events (env_ubuntu_notifier hs) (usr_lib_files hs) (unity w)) as Hev.
    assert (Henv : fst (fst (UnityIsRunning (env_ubuntu_notifier hs) (usr_lib_files hs) (unity w)))
                   = false -> env_ubuntu_notifier hs = false)
      by (unfold UnityIsRunning; destruct (env_ubuntu_notifier hs); cbn; congruence).
    destruct (UnityIsRunning _ _ _) as [[u c'] uevs]; cbn in Hev, Henv |- *.
    exists (show_prefix (next_handle w) data icon d u uevs
            ++ (if err then [EvLogError "notify_notification_show"; EvUnref (next_handle w)]
                else [EvDisplayed d]
                     ++ (if cb then [EvSetCancelCallback (next_handle w)] else []))).
    split; [destruct err; reflexivity|].
    unfold show_prefix; intros h a l.
    destruct Hev as [-> | ->], u, (drawsNothing icon), err, cb; cbn;
      (split;
       [intros Hin;
        repeat match goal with H : _ \/ _ |- _ => destruct H as [H|H] end;
        try discriminate; try contradiction;
        injection Hin as <- <- <-; repeat split; auto
       |intros (-> & -> & -> & He & Hu); try discriminate Hu;
        repeat (first [left; reflexivity | right])]).
  - destruct (Hrem n) as (evs & Ht & Hno); [destruct err; tauto|].
    exists evs; split; [exact Ht|]; intros h a l; split; [apply Hno|intros []].
  - destruct (Hrem n) as (evs & Ht & Hno); [tauto|].
    exists evs; split; [exact Ht|]; intros h a l; split; [apply Hno|intros []].
  - cbn in Hs; inversion Hs; subst; exists []; split; [symmetry; apply app_nil_r|].
    intros h a l; split; [intros []|intros []].
  - destruct (Hrem n) as (evs & Ht & Hno); [tauto|].
    exists evs; split; [exact Ht|]; intros h a l; split; [apply Hno|intros []].
  - cbn in Hs; inversion Hs; subst; exists []; split; [symmetry; apply app_nil_r|].
    intros h a l; split; [intros []|intros []].
Qed.

Lemma add_action_iff_not_unity_witness :
  step (OpShow c1_host c1_data c1_icon 7 true false) world_init
    = Some (tt, show_result c1_host c1_data c1_icon 7 true false world_init)
  /\ exists evs,
       trace (show_result c1_host c1_data c1_icon 7 true false world_init) = trace world_init ++ evs
       /\ forall h a l,
            In (EvAddAction h a l) evs <->
            h = next_handle world_init /\ a = "default" /\ l = "View"
            /\ env_ubuntu_notifier c1_host = false
            /\ fst (fst (UnityIsRunning (env_ubuntu_notifier c1_host) (usr_lib_files c1_host)
                                        (unity world_init))) = false.
Proof.
  assert (Hs : step (OpShow c1_host c1_data c1_icon 7 true false) world_init
               = Some (tt, show_result c1_host c1_data c1_icon 7 true false world_init))
    by (vm_compute; reflexivity).
  split; [exact Hs|].
  exact (add_action_iff_not_unity _ world_init _ Hs).
Defined.

(** C10: the "closed" and action callbacks ignore a null notification: the
    world, tracked list and trace included, is left unchanged. *)
Theorem null_callbacks_noop w :
  step (OpClosed None) w = Some (tt, w) /\ step (OpView None) w = Some (tt, w).
Proof. split; reflexivity. Qed.

(** ** Further properties of the presenter *)

Lemma In_free_object_ne o h k v : In (k, v) (free_object o h) -> In (k, v) o /\ k <> h.
Proof.
  unfold free_object; rewrite filter_In; cbn.
  intros [Hin Hk]; split; [exact Hin|].
  intros ->; rewrite Nat.eqb_refl in Hk; discriminate.
Qed.

Lemma object_data_fold_free l : forall o x,
  object_data (fold_left free_object l o) x =
  if existsb (Nat.eqb x) l then None else object_data o x.
Proof.
  induction l as [|h l IH]; intros o x; cbn; [reflexivity|].
  rewrite IH, object_data_free.
  destruct (Nat.eqb x h), (existsb (Nat.eqb x) l); reflexivity.
Qed.

Lemma fold_free_all l : forall o,
  (forall k v, In (k, v) o -> In k l) -> fold_left free_object l o = [].
Proof.
  induction l as [|h l IH]; intros o Hk; cbn.
  - destruct o as [|[k v] o]; [reflexivity|].
    exfalso; apply (Hk k v); left; reflexivity.
  - apply IH; intros k v Hin.
    apply In_free_object_ne in Hin as [Hin Hne].
    destruct (Hk k v Hin) as [->|Hl]; [contradiction|exact Hl].
Qed.

Lemma g_list_free_full_unref_run l : forall w,
  NoDup l -> (forall h, In h l -> object_data (live w) h <> None) ->
  g_list_free_full_unref l w =
  Some (tt, {| notifications := notifications w;
               live := fold_left free_object l (live w);
               next_handle := next_handle w; unity := unity w;
               trace := trace w ++ map EvUnref l |}).
Proof.
  induction l as [|h l IH]; intros w Hnd Hl.
  - destruct w; cbn; rewrite app_nil_r; reflexivity.
  - inversion Hnd; subst.
    cbn [g_list_free_full_unref]; unfold g_object_unref, bind, gets, modify, emit.
    destruct (object_data (live w) h) as [v|] eqn:Hd;
      [|exfalso; apply (Hl h); [left; reflexivity|exact Hd]].
    cbn -[free_object]; rewrite IH; cbn -[free_object].
    + rewrite <- app_assoc; reflexivity.
    + assumption.
    + intros x Hx; cbn -[free_object]; rewrite object_data_free.
      destruct (Nat.eqb_spec x h) as [->|]; [contradiction|].
      apply Hl; right; exact Hx.
Qed.

Lemma DestroyNotificationPresenterLinux_run w :
  wf w ->
  DestroyNotificationPresenterLinux w =
  Some (tt, {| notifications := [];
               live := fold_left free_object (notifications w) (live w);
               next_handle := next_handle w; unity := unity w;
               trace := trace w ++ map EvUnref (notifications w) |}).
Proof.
  intros (Hnd & Htr & _).
  unfold DestroyNotificationPresenterLinux, bind, gets, modify, set_notifications.
  destruct (notifications w) as [|h l] eqn:Hn.
  - cbn; rewrite app_nil_r; reflexivity.
  - rewrite g_list_free_full_unref_run; [reflexivity|exact Hnd|].
    intros x Hx; destruct (Htr x Hx) as [d Hd]; congruence.
Qed.

(** The destructor unrefs every tracked notification once, in list order,
    releasing exactly those objects; other objects are untouched. *)
Theorem destructor_unrefs_tracked w :
  wf w ->
  exists w',
    DestroyNotificationPresenterLinux w = Some (tt, w')
    /\ notifications w' = []
    /\ trace w' = trace w ++ map EvUnref (notifications w)
    /\ (forall h, In h (notifications w) -> object_data (live w') h = None)
    /\ (forall h, ~ In h (notifications w) -> object_data (live w') h = object_data (live w) h).
Proof.
  intros Hwf; eexists; split; [apply DestroyNotificationPresenterLinux_run, Hwf|].
  cbn; split; [reflexivity|split; [reflexivity|split]].
  - intros h Hh; rewrite object_data_fold_free.
    replace (existsb (Nat.eqb h) (notifications w)) with true; [reflexivity|].
    symmetry; apply existsb_exists; exists h; split; [exact Hh|apply Nat.eqb_refl].
  - intros h Hh; rewrite object_data_fold_free.
    destruct (existsb (Nat.eqb h) (notifications w)) eqn:He; [|reflexivity].
    apply existsb_exists in He as [x [Hx Heq]]; apply Nat.eqb_eq in Heq; subst; contradiction.
Qed.

Lemma destructor_unrefs_tracked_witness :
  wf one_tracked
  /\ exists w',
    DestroyNotificationPresenterLinux one_tracked = Some (tt, w')
    /\ notifications w' = []
    /\ trace w' = trace one_tracked ++ map EvUnref (notifications one_tracked)
    /\ (forall h, In h (notifications one_tracked) -> object_data (live w') h = None)
    /\ (forall h, ~ In h (notifications one_tracked) ->
                  object_data (live w') h = object_data (live one_tracked) h).
Proof.
  assert (Hwf : wf one_tracked) by (apply wfb_sound; vm_compute; reflexivity).
  split; [exact Hwf|].
  exact (destructor_unrefs_tracked one_tracked Hwf).
Defined.

Lemma StronglySorted_snoc l h :
  StronglySorted lt l -> Forall (fun x => x < h) l -> StronglySorted lt (l ++ [h]).
Proof.
  induction l as [|x l IH]; intros Hs Hf; cbn.
  - repeat constructor.
  - inversion Hs; inversion Hf; subst.
    constructor; [auto|].
    apply Forall_app; split; [assumption|constructor; [assumption|constructor]].
Qed.

Lemma StronglySorted_g_list_remove l n :
  StronglySorted lt l -> StronglySorted lt (g_list_remove l n).
Proof.
  induction l as [|x l IH]; intros Hs; cbn; [constructor|].
  inversion Hs; subst.
  destruct (Nat.eqb x n); [assumption|].
  constructor; [auto|].
  rewrite Forall_forall in *; intros y Hy; apply g_list_remove_In in Hy; auto.
Qed.

(** The invariant of reachable worlds. *)
Definition presenter_inv (w : world) : Prop :=
  wf w /\ no_untracked w /\ StronglySorted lt (notifications w).

Lemma step_presenter_inv o w w' :
  presenter_inv w -> step o w = Some (tt, w') -> presenter_inv w'.
Proof.
  intros (Hwf & Hun & Hso) Hs.
  assert (Hrem : forall n evs, w' = removal_result n evs w -> presenter_inv w').
  { intros n evs ->; split; [now apply wf_removal|split].
    - intros k v Hin; cbn [live notifications removal_result] in Hin |- *.
      apply In_free_object_ne in Hin as [Hin Hne].
      apply g_list_remove_iff; [apply Hwf|]; split; [eapply Hun; eauto|exact Hne].
    - cbn; now apply StronglySorted_g_list_remove. }
  destruct o as [hs data icon d cb err|n err|[n|]|[n|]].
  - unfold step in Hs; rewrite ShowNotification_run in Hs; inversion Hs; subst w'.
    split; [now apply wf_show|].
    pose proof Hwf as (Hnd & Htr & Hlt).
    unfold show_result; destruct (UnityIsRunning _ _ _) as [[u c'] evs].
    destruct err; unfold no_untracked; cbn [live notifications]; split.
    + intros k v Hin.
      apply In_free_object_ne in Hin as [Hin Hne].
      apply In_update_object in Hin as [v' [Hin|Hin]]; [inversion Hin; subst; contradiction|].
      eapply Hun; eauto.
    + exact Hso.
    + intros k v Hin.
      apply In_update_object in Hin as [v' [Hin|Hin]]; apply in_or_app.
      * inversion Hin; subst; right; left; reflexivity.
      * left; eapply Hun; eauto.
    + apply StronglySorted_snoc; [exact Hso|].
      apply Forall_forall; intros x Hx.
      destruct (Htr x Hx) as [d' Hd']; apply object_data_In, Hlt in Hd'; exact Hd'.
  - destruct (removal_step_inv (OpCancel n err) n w w') as (d & evs & _ & Heq & _);
      [destruct err; tauto|assumption|eauto].
  - destruct (removal_step_inv (OpClosed (Some n)) n w w') as (d & evs & _ & Heq & _);
      [tauto|assumption|eauto].
  - cbn in Hs; inversion Hs; subst; split; auto.
  - destruct (removal_step_inv (OpView (Some n)) n w w') as (d & evs & _ & Heq & _);
      [tauto|assumption|eauto].
  - cbn in Hs; inversion Hs; subst; split; auto.
Qed.

Lemma run_presenter_inv ops : forall w w',
  presenter_inv w -> run ops w = Some (tt, w') -> presenter_inv w'.
Proof.
  induction ops as [|o ops IH]; intros w w' Hi Hr; cbn in Hr.
  - unfold ret in Hr; inversion Hr; subst; exact Hi.
  - unfold bind in Hr.
    destruct (step o w) as [[[] w1]|] eqn:Hs; [|discriminate].
    eapply IH; [eapply step_presenter_inv; eauto|exact Hr].
Qed.

Lemma reachable_presenter_inv w : reachable w -> presenter_inv w.
Proof.
  intros [ops Hr]; eapply run_presenter_inv; [|exact Hr].
  split; [apply wfb_sound; reflexivity|split].
  - intros k v [].
  - constructor.
Qed.

(** In every world a presenter reaches, the tracked list has no duplicates,
    a notification object is alive exactly when it is tracked, and every
    tracked notification carries its delegate. *)
Theorem reachable_live_iff_tracked w :
  reachable w ->
  NoDup (notifications w)
  /\ (forall h, In h (notifications w) <-> exists v, In (h, v) (live w))
  /\ (forall h, In h (notifications w) -> exists d, object_data (live w) h = Some (Some d)).
Proof.
  intros Hr; destruct (reachable_presenter_inv w Hr) as ((Hnd & Htr & _) & Hun & _).
  split; [exact Hnd|split; [|exact Htr]].
  intros h; split.
  - intros Hh; destruct (Htr h Hh) as [d Hd]; exists (Some d); now apply object_data_In.
  - intros [v Hv]; eapply Hun; eauto.
Qed.

(** A world reached by showing one notification. *)
Definition shown_once : world :=
  show_result c1_host c1_data c1_icon 7 true false world_init.

Lemma reachable_live_iff_tracked_witness :
  reachable shown_once
  /\ NoDup (notifications shown_once)
  /\ (forall h, In h (notifications shown_once) <-> exists v, In (h, v) (live shown_once))
  /\ (forall h, In h (notifications shown_once) ->
                exists d, object_data (live shown_once) h = Some (Some d)).
Proof.
  assert (Hr : reachable shown_once)
    by (exists [OpShow c1_host c1_data c1_icon 7 true false]; vm_compute; reflexivity).
  split; [exact Hr|].
  exact (reachable_live_iff_tracked shown_once Hr).
Defined.

(** Destroying a presenter in a reachable world leaves no notification
    object alive. *)
Theorem reachable_destructor_frees_all w :
  reachable w ->
  exists w', DestroyNotificationPresenterLinux w = Some (tt, w')
             /\ live w' = []
             /\ trace w' = trace w ++ map EvUnref (notifications w).
Proof.
  intros Hr; destruct (reachable_presenter_inv w Hr) as (Hwf & Hun & _).
  eexists; split; [apply DestroyNotificationPresenterLinux_run, Hwf|].
  cbn; split; [|reflexivity].
  apply fold_free_all; exact Hun.
Qed.

Lemma reachable_destructor_frees_all_witness :
  reachable shown_once
  /\ exists w', DestroyNotificationPresenterLinux shown_once = Some (tt, w')
                /\ live w' = []
                /\ trace w' = trace shown_once ++ map EvUnref (notifications shown_once).
Proof.
  assert (Hr : reachable shown_once)
    by (exists [OpShow c1_host c1_data c1_icon 7 true false]; vm_compute; reflexivity).
  split; [exact Hr|].
  exact (reachable_destructor_frees_all shown_once Hr).
Defined.

Lemma op_target_cases o n :
  op_target o = Some n ->
  o = OpCancel n true \/ o = OpCancel n false \/ o = OpClosed (Some n) \/ o = OpView (Some n).
Proof.
  destruct o as [hs data icon d cb err|m []|[m|]|[m|]]; cbn; intros H;
    try discriminate; inversion H; subst; tauto.
Qed.

Lemma removal_undefined o n w :
  op_target o = Some n -> object_data (live w) n = None -> step o w = None.
Proof.
  intros Ho Hd; apply op_target_cases in Ho.
  destruct Ho as [-> | [-> | [-> | ->]]]; unfold step;
    unfold CancelNotification, OnNotificationClosed, OnNotificationView;
    run_monad; rewrite Hd; reflexivity.
Qed.

Lemma removal_run o n d w :
  op_target o = Some n -> object_data (live w) n = Some (Some d) ->
  exists evs, step o w = Some (tt, removal_result n evs w).
Proof.
  intros Ho Hd; apply op_target_cases in Ho.
  destruct Ho as [-> | [-> | [-> | ->]]]; unfold step; eexists;
    [apply (CancelNotification_run n true d w Hd)
    |apply (CancelNotification_run n false d w Hd)
    |apply (OnNotificationClosed_run n d w Hd)
    |apply (OnNotificationView_run n d w Hd)].
Qed.

(** Once CancelNotification or a libnotify callback has released a
    notification, a further cancel, "closed" or action callback on the same
    handle uses the freed object: it is undefined behaviour. *)
Theorem second_release_undefined o1 o2 n w w' :
  op_target o1 = Some n -> op_target o2 = Some n ->
  step o1 w = Some (tt, w') -> step o2 w' = None.
Proof.
  intros H1 H2 Hs.
  destruct (removal_step_inv o1 n w w') as (d & evs & _ & -> & _);
    [now apply op_target_cases|exact Hs|].
  apply removal_undefined with (n := n); [exact H2|].
  cbn; rewrite object_data_free, Nat.eqb_refl; reflexivity.
Qed.

Lemma second_release_undefined_witness :
  op_target (OpCancel 1 false) = Some 1 /\ op_target (OpClosed (Some 1)) = Some 1
  /\ step (OpCancel 1 false) one_tracked
     = Some (tt, removal_result 1 [EvClose 1; EvClosed 7] one_tracked)
  /\ step (OpClosed (Some 1)) (removal_result 1 [EvClose 1; EvClosed 7] one_tracked) = None.
Proof.
  assert (H1 : op_target (OpCancel 1 false) = Some 1) by reflexivity.
  assert (H2 : op_target (OpClosed (Some 1)) = Some 1) by reflexivity.
  assert (Hs : step (OpCancel 1 false) one_tracked
               = Some (tt, removal_result 1 [EvClose 1; EvClosed 7] one_tracked))
    by (vm_compute; reflexivity).
  split; [exact H1|split; [exact H2|split; [exact Hs|]]].
  exact (second_release_undefined _ _ 1 one_tracked _ H1 H2 Hs).
Defined.

Lemma g_list_remove_snoc_fresh l h : ~ In h l -> g_list_remove (l ++ [h]) h = l.
Proof.
  induction l as [|x l IH]; intros Hn; cbn; [rewrite Nat.eqb_refl; reflexivity|].
  destruct (Nat.eqb_spec x h) as [->|]; [exfalso; apply Hn; left; reflexivity|].
  rewrite IH; [reflexivity|intros Hin; apply Hn; right; exact Hin].
Qed.

Lemma free_update_fresh o h d :
  (forall k v, In (k, v) o -> k < h) ->
  free_object (update_object ((h, None) :: o) h d) h = o.
Proof.
  intros Hlt; unfold free_object, update_object; cbn; rewrite Nat.eqb_refl; cbn.
  rewrite Nat.eqb_refl; cbn.
  induction o as [|[k v] o IH]; cbn; [reflexivity|].
  assert (Hk : k < h) by (apply (Hlt k v); left; reflexivity).
  destruct (Nat.eqb_spec k h) as [->|]; [lia|]; cbn.
  destruct (Nat.eqb_spec k h) as [->|]; [lia|]; cbn.
  rewrite IH; [reflexivity|intros k' v' Hin; apply (Hlt k' v'); right; exact Hin].
Qed.

(** Showing a notification and then cancelling it, or receiving its
    "closed" or action callback, gives back the tracked list and the live
    objects of before the show. *)
Theorem show_then_release_restores hs data icon d cb w o :
  wf w -> op_target o = Some (next_handle w) ->
  exists w2, run [OpShow hs data icon d cb false; o] w = Some (tt, w2)
             /\ notifications w2 = notifications w
             /\ live w2 = live w.
Proof.
  intros Hwf Ho.
  pose proof (wf_next_fresh w Hwf) as Hfresh.
  destruct Hwf as (_ & _ & Hlt).
  set (w1 := show_result hs data icon d cb false w).
  assert (Hd : object_data (live w1) (next_handle w) = Some (Some d)).
  { subst w1; unfold show_result; destruct (UnityIsRunning _ _ _) as [[u c'] evs].
    cbn; rewrite !Nat.eqb_refl; reflexivity. }
  destruct (removal_run o (next_handle w) d w1 Ho Hd) as [evs Hs].
  exists (removal_result (next_handle w) evs w1).
  cbn [run]; unfold bind at 1; unfold step at 1; rewrite ShowNotification_run; fold w1.
  unfold bind; rewrite Hs; split; [reflexivity|].
  subst w1; unfold removal_result, show_result.
  destruct (UnityIsRunning _ _ _) as [[u c'] evs']; cbn [notifications live].
  split; [now apply g_list_remove_snoc_fresh|now apply free_update_fresh].
Qed.

Lemma show_then_release_restores_witness :
  wf one_tracked /\ op_target (OpView (Some 2)) = Some (next_handle one_tracked)
  /\ exists w2, run [OpShow c1_host c1_data c1_icon 8 false false; OpView (Some 2)] one_tracked
                = Some (tt, w2)
                /\ notifications w2 = notifications one_tracked
                /\ live w2 = live one_tracked.
Proof.
  assert (Hwf : wf one_tracked) by (apply wfb_sound; vm_compute; reflexivity).
  assert (Ho : op_target (OpView (Some 2)) = Some (next_handle one_tracked)) by reflexivity.
  split; [exact Hwf|split; [exact Ho|]].
  exact (show_then_release_restores c1_host c1_data c1_icon 8 false one_tracked _ Hwf Ho).
Defined.

(** A ShowNotification whose show fails releases the object it allocated:
    the live objects and the tracked list are those of before the call. *)
Theorem show_error_releases_object hs data icon d cb w :
  wf w ->
  exists w', step (OpShow hs data icon d cb true) w = Some (tt, w')
             /\ live w' = live w /\ notifications w' = notifications w.
Proof.
  intros (_ & _ & Hlt).
  exists (show_result hs data icon d cb true w).
  unfold step; rewrite ShowNotification_run; split; [reflexivity|].
  unfold show_result; destruct (UnityIsRunning _ _ _) as [[u c'] evs]; cbn [live notifications].
  split; [now apply free_update_fresh|reflexivity].
Qed.

Lemma show_error_releases_object_witness :
  wf one_tracked
  /\ exists w', step (OpShow c1_host c1_data c1_icon 8 true true) one_tracked = Some (tt, w')
                /\ live w' = live one_tracked /\ notifications w' = notifications one_tracked.
Proof.
  assert (Hwf : wf one_tracked) by (apply wfb_sound; vm_compute; reflexivity).
  split; [exact Hwf|].
  exact (show_error_releases_object c1_host c1_data c1_icon 8 true one_tracked Hwf).
Defined.

(** ShowNotification installs a cancel callback only when the show succeeded
    and the caller passed a callback slot, and the callback is bound to the
    new notification. *)
Theorem show_installs_cancel_callback hs data icon d cb err w :
  exists w' evs,
    step (OpShow hs data icon d cb err) w = Some (tt, w')
    /\ trace w' = trace w ++ evs
    /\ forall h, In (EvSetCancelCallback h) evs <->
                 cb = true /\ err = false /\ h = next_handle w.
Proof.
  exists (show_result hs data icon d cb err w).
  unfold step; rewrite ShowNotification_run.
  unfold show_result.
  pose proof (UnityIsRunning_events (env_ubuntu_notifier hs) (usr_lib_files hs) (unity w)) as Hev.
  destruct (UnityIsRunning _ _ _) as [[u c'] uevs]; cbn in Hev.
  exists (show_prefix (next_handle w) data icon d u uevs
          ++ (if err then [EvLogError "notify_notification_show"; EvUnref (next_handle w)]
              else [EvDisplayed d]
                   ++ (if cb then [EvSetCancelCallback (next_handle w)] else []))).
  split; [reflexivity|split; [destruct err; reflexivity|]].
  unfold show_prefix; intros h.
  destruct Hev as [-> | ->], u, (drawsNothing icon), err, cb; cbn;
    (split;
     [intros Hin;
      repeat match goal with H : _ \/ _ |- _ => destruct H as [H|H] end;
      try discriminate; try contradiction;
      injection Hin as <-; repeat split
     |intros (Hc & He & ->); try discriminate Hc; try discriminate He;
      repeat (first [left; reflexivity | right])]).
Qed.

(** CancelNotification on a tracked notification whose close succeeds closes
    it with libnotify, then calls the delegate's NotificationClosed, then
    untracks and releases it. *)
Theorem cancel_success_closes_then_notifies w n :
  wf w -> In n (notifications w) ->
  exists d w',
    object_data (live w) n = Some (Some d)
    /\ step (OpCancel n false) w = Some (tt, w')
    /\ trace w' = trace w ++ [EvClose n; EvClosed d; EvUnref n]
    /\ object_data (live w') n = None
    /\ (forall x, In x (notifications w') <-> In x (notifications w) /\ x <> n).
Proof.
  intros Hwf Hn.
  destruct Hwf as (Hnd & Htr & Hlt) eqn:E.
  destruct (Htr n Hn) as [d Hd].
  exists d, (removal_result n [EvClose n; EvClosed d] w).
  split; [exact Hd|split; [|split; [|split]]].
  - unfold step; rewrite (CancelNotification_run n false d w Hd); reflexivity.
  - reflexivity.
  - cbn [removal_result live]; rewrite object_data_free, Nat.eqb_refl; reflexivity.
  - intros x; cbn; apply g_list_remove_iff, Hnd.
Qed.

Lemma cancel_success_closes_then_notifies_witness :
  wf one_tracked /\ In 1 (notifications one_tracked)
  /\ exists d w',
       object_data (live one_tracked) 1 = Some (Some d)
       /\ step (OpCancel 1 false) one_tracked = Some (tt, w')
       /\ trace w' = trace one_tracked ++ [EvClose 1; EvClosed d; EvUnref 1]
       /\ object_data (live w') 1 = None
       /\ (forall x, In x (notifications w') <-> In x (notifications one_tracked) /\ x <> 1).
Proof.
  assert (Hwf : wf one_tracked) by (apply wfb_sound; vm_compute; reflexivity).
  assert (Hin : In 1 (notifications one_tracked)) by (cbn; tauto).
  split; [exact Hwf|split; [exact Hin|]].
  exact (cancel_success_closes_then_notifies one_tracked 1 Hwf Hin).
Defined.

(** While ELECTRON_USE_UBUNTU_NOTIFIER is set, UnityIsRunning answers true
    without ever enumerating /usr/lib and leaves its cache as it was. *)
Theorem env_set_never_scans calls : forall c,
  Forall (fun call => fst call = true) calls ->
  run_unity c calls = (map (fun _ => true) calls, [])
  /\ unity_cache_after c calls = c.
Proof.
  induction calls as [|[e f] rest IH]; intros c Hall; cbn; [split; reflexivity|].
  inversion Hall as [|? ? He Hrest]; subst; cbn in He; subst e.
  cbn; destruct (IH c Hrest) as [Hr Hc]; rewrite Hr, Hc; split; reflexivity.
Qed.

Lemma env_set_never_scans_witness :
  Forall (fun call => fst call = true) c10_calls
  /\ run_unity c10_cache c10_calls = (map (fun _ => true) c10_calls, [])
  /\ unity_cache_after c10_cache c10_calls = c10_cache.
Proof.
  assert (H : Forall (fun call : bool * list string => fst call = true) c10_calls)
    by (repeat constructor).
  split; [exact H|].
  exact (env_set_never_scans c10_calls c10_cache H).
Defined.

(** Init calls notify_init only when one of the libraries loaded and the
    loaded library is not initialised yet; the library it keeps is the first
    of the list that loads. *)
Theorem Init_calls_notify_init sys app_name :
  init_loaded (Init sys app_name) = find (lib_loads sys) libnotify_names
  /\ init_called (Init sys app_name) =
     match find (lib_loads sys) libnotify_names with
     | Some lib => negb (lib_is_initted sys lib)
     | None => false
     end.
Proof.
  unfold Init, libnotify_names; cbn.
  destruct (lib_loads sys "libnotify.so.4");
    [|destruct (lib_loads sys "libnotify.so.1");
      [|destruct (lib_loads sys "libnotify.so")]]; cbn;
    try (split; reflexivity);
    match goal with
    | |- context [lib_is_initted ?s ?l] => destruct (lib_is_initted s l); split; reflexivity
    end.
Qed.
